(** * stock_bot.py: the portfolio report and its delivery

    A shallow embedding of [src/stock_bot.py].  The script reads a table of
    holdings, asks a market-data provider for the last two closes of every
    symbol, sums the portfolio, renders a text report and posts it to a
    webhook.

    Modelling choices.
    - Prices and quantities are Python/numpy binary64 numbers in the source;
      here they are exact rationals [Q] (no rounding, no inf, no nan).  No
      arithmetic operation of the script raises on numpy values, so the
      arithmetic never turns a fetched quote into a failure.  A quotient by
      zero, inf or nan in numpy, is here what [Qdiv] makes of it; no
      statement below rests on the value of such a quotient.  The
      statements name the operations the code applies, in its order, or
      speak of traces, order and exit codes, so that they read the same
      over binary64; none rests on sums being associative or on a
      difference cancelling.  The test of the sign of the total daily
      change, where a NaN decides, is embedded over binary64 as well
      ([performance_b64]).
    - The outside world (environment variable, holdings table, provider,
      webhook, clock) is a record [world]; every call that leaves the
      process is recorded as an [event] of the run's trace, console output
      included.
    - [sys.exit] ends the run at once: programs live in a small monad of
      traces with early exit. *)

From Stdlib Require Import QArith Qabs ZArith List String Ascii Bool Lia Lqa.
From Stdlib Require Import DecimalString.
From Stdlib Require Floats.
Import ListNotations.

Local Open Scope string_scope.

(* ===================================================================== *)
(** ** Numbers and their rendering *)
(* ===================================================================== *)

(** [x < y] on rationals, as a boolean. *)
Definition Qlt_bool (x y : Q) : bool :=
  (Qnum x * QDen y <? Qnum y * QDen x)%Z.

(** The line feed written [\n] in the source. *)
Definition nl : string := String (ascii_of_nat 10) EmptyString.

(** Decimal digits of a natural number given as a [Z]. *)
Definition digits (n : Z) : string :=
  NilZero.string_of_uint (N.to_uint (Z.to_N n)).

Definition pad2 (n : Z) : string :=
  if (n <? 10)%Z then "0" ++ digits n else digits n.

(** Nearest integer of a non-negative rational, ties to even: the rounding
    of Python's [f] presentation type on the exact value. *)
Definition round_half_even (q : Q) : Z :=
  let n := Qnum q in
  let d := Zpos (Qden q) in
  let fl := (n / d)%Z in
  let r2 := (2 * (n mod d))%Z in
  if (r2 <? d)%Z then fl
  else if (d <? r2)%Z then (fl + 1)%Z
  else if Z.even fl then fl else (fl + 1)%Z.

(** The [,] option: a comma every three digits, counted from the right.
    [group3] works on the reversed digits, [k] being the number of digits
    already written in the current group. *)
Fixpoint group3 (rev_digits : list ascii) (k : nat) : list ascii :=
  match rev_digits with
  | [] => []
  | c :: rest =>
      if (k =? 3)%nat then ","%char :: c :: group3 rest 1
      else c :: group3 rest (S k)
  end.

Definition group_thousands (s : string) : string :=
  string_of_list_ascii (rev (group3 (rev (list_ascii_of_string s)) 0)).

(** The format specs [.2f], [+.2f], [,.2f] and [+,.2f]: [plus] is the [+]
    flag and [comma] the [,] option. *)
Definition format_2f (plus comma : bool) (x : Q) : string :=
  let cents := round_half_even (Qabs x * 100) in
  let int_part := digits (cents / 100) in
  (if Qlt_bool x 0 then "-" else if plus then "+" else EmptyString)
  ++ (if comma then group_thousands int_part else int_part)
  ++ "." ++ pad2 (cents mod 100).

(** [str.capitalize] on ASCII text: first letter upper case, the others
    lower case. *)
Definition upper (c : ascii) : ascii :=
  let n := nat_of_ascii c in
  if ((97 <=? n) && (n <=? 122))%nat then ascii_of_nat (n - 32) else c.

Definition lower (c : ascii) : ascii :=
  let n := nat_of_ascii c in
  if ((65 <=? n) && (n <=? 90))%nat then ascii_of_nat (n + 32) else c.

Fixpoint lowercase (s : string) : string :=
  match s with
  | EmptyString => EmptyString
  | String c s' => String (lower c) (lowercase s')
  end.

Definition capitalize (s : string) : string :=
  match s with
  | EmptyString => EmptyString
  | String c s' => String (upper c) (lowercase s')
  end.

(** ["=" * 50] and the like. *)
Fixpoint repeat_string (s : string) (n : nat) : string :=
  match n with
  | O => EmptyString
  | S n' => s ++ repeat_string s n'
  end.

(* ===================================================================== *)
(** ** The world outside the process *)
(* ===================================================================== *)

(** What [yf.Ticker(symbol).history(period='2d')] gives: the [Close] column,
    oldest day first, or an exception caught by [get_stock_data]. *)
Inductive history_result : Type :=
| Closes (hist : list Q)
| HistoryRaises (e : string).

(** The arguments of [requests.post]. *)
Record post_request : Type := {
  req_url : string;
  req_json : list (string * string);
  req_headers : list (string * string);
  req_timeout : Z
}.

(** What [requests.post] gives: a response, or a transport-level exception. *)
Inductive post_result : Type :=
| Response (status_code : Z) (text : string)
| PostRaises (e : string).

Record world : Type := {
  (** [os.environ.get('SLACK_WEBHOOK_URL')] *)
  SLACK_WEBHOOK_URL : option string;
  (** the module-level table of holdings, in the order of the literal *)
  PORTFOLIO : list (string * Q);
  history : string -> history_result;
  post : post_request -> post_result;
  (** [datetime.now().strftime(fmt)] *)
  strftime_now : string -> string
}.

(** The table as the source writes it (the commas its literal lacks put
    back). *)
Definition PORTFOLIO_source : list (string * Q) :=
  [ ("AAPL", 1%Q); ("MSFT", 1%Q); ("VOO", 4.202%Q); ("QTUM", 4.681%Q);
    ("QQQ", 0.187%Q); ("SPY", 4.612%Q); ("XLU", 0.578%Q);
    ("JAAA", 2.067%Q); ("SCHD", 5.564%Q) ].

(* ===================================================================== *)
(** ** Runs: traces with early exit *)
(* ===================================================================== *)

Inductive event : Type :=
| Print (line : string)            (* print(line) *)
| Fetch (symbol : string)          (* market-data request for [symbol] *)
| Post (req : post_request).       (* requests.post(...) *)

Inductive outcome (A : Type) : Type :=
| Returned (a : A)
| Exited (code : Z).

Arguments Returned {A} a.
Arguments Exited {A} code.

Definition prog (A : Type) : Type := (list event * outcome A)%type.

Definition ret {A : Type} (a : A) : prog A := ([], Returned a).

Definition bind {A B : Type} (m : prog A) (k : A -> prog B) : prog B :=
  match m with
  | (t, Returned a) => let (t', o) := k a in ((t ++ t')%list, o)
  | (t, Exited c) => (t, Exited c)
  end.

Definition emit (e : event) : prog unit := ([e], Returned tt).

Definition print (line : string) : prog unit := emit (Print line).

Definition sys_exit {A : Type} (code : Z) : prog A := ([], Exited code).

Declare Scope prog_scope.
Delimit Scope prog_scope with prog.
Notation "x <- m ;; k" := (bind m (fun x => k))
  (at level 61, m at next level, right associativity) : prog_scope.
Notation "m ;; k" := (bind m (fun _ => k))
  (at level 61, right associativity) : prog_scope.
Local Open Scope prog_scope.

(** A [for] loop threading the loop's variables through its body. *)
Fixpoint for_each {S X : Type} (body : S -> X -> prog S) (xs : list X) (s : S)
  : prog S :=
  match xs with
  | [] => ret s
  | x :: xs' => s' <- body s x ;; for_each body xs' s'
  end.

Definition trace {A : Type} (m : prog A) : list event := fst m.

Definition result {A : Type} (m : prog A) : outcome A := snd m.

(** The exit status of the process: the argument of [sys.exit], or 0 when
    the program runs off its end. *)
Definition exit_code {A : Type} (m : prog A) : Z :=
  match result m with
  | Exited c => c
  | Returned _ => 0%Z
  end.

(** The requests of a trace, by kind. *)
Definition fetches (t : list event) : list string :=
  flat_map (fun e => match e with Fetch s => [s] | _ => [] end) t.

Definition posts (t : list event) : list post_request :=
  flat_map (fun e => match e with Post r => [r] | _ => [] end) t.

(** The HTTP calls of a trace: everything but console output. *)
Definition is_http (e : event) : bool :=
  match e with
  | Print _ => false
  | Fetch _ | Post _ => true
  end.

Definition http_calls (t : list event) : list event := filter is_http t.

(** The market-data requests of a table of holdings, one per item. *)
Definition fetch_all (items : list (string * Q)) : list event :=
  map (fun item : string * Q => Fetch (fst item)) items.

(* ===================================================================== *)
(** ** The literals of the report *)
(* ===================================================================== *)

(** The non-ASCII literals, byte for byte as the source file holds them. *)
Definition emoji_up : string := "ðŸ“ˆ".
Definition emoji_down : string := "ðŸ“‰".
Definition emoji_flat : string := "âž¡ï¸".
Definition marker_green : string := "ðŸŸ¢".
Definition marker_red : string := "ðŸ”´".
Definition rule : string :=
  "â”€â”€â”€â”€â”€â”€â”€â”€â”€â”€â”€â”€â”€â”€â”€â”€â”€â”€â”€â”€â”€".

(* ===================================================================== *)
(** ** get_stock_data *)
(* ===================================================================== *)

(** The dict [get_stock_data] returns (the variable [data] of its caller). *)
Record quote : Type := {
  data_symbol : string;
  data_price : Q;
  data_change : Q;
  data_change_pct : Q
}.

(** [hist['Close'].iloc[-k]]: the [k]-th close counted from the end.  The
    source reads it only under a test on [len(hist)] that keeps it in
    range. *)
Definition iloc_neg (hist : list Q) (k : nat) : Q :=
  nth (List.length hist - k) hist 0%Q.

Definition get_stock_data (w : world) (symbol : string) : prog (option quote) :=
  emit (Fetch symbol) ;;
  match history w symbol with
  | HistoryRaises e =>
      print ("Error fetching " ++ symbol ++ ": " ++ e) ;;
      ret None
  | Closes hist =>
      if (List.length hist <? 1)%nat then
        print ("No data available for " ++ symbol) ;;
        ret None
      else
        let current_price := iloc_neg hist 1 in
        let '(change, change_pct) :=
          if (2 <=? List.length hist)%nat then
            let prev_price := iloc_neg hist 2 in
            let change := (current_price - prev_price)%Q in
            (change, ((change / prev_price) * 100)%Q)
          else (0%Q, 0%Q) in
        ret (Some {| data_symbol := symbol;
                     data_price := current_price;
                     data_change := change;
                     data_change_pct := change_pct |})
  end.

(* ===================================================================== *)
(** ** calculate_portfolio *)
(* ===================================================================== *)

(** An entry of [portfolio_data] (the variable [stock] of
    [format_message]). *)
Record stock : Type := {
  stock_symbol : string;
  stock_shares : Q;
  stock_price : Q;
  stock_value : Q;
  stock_change : Q;
  stock_change_pct : Q;
  stock_daily_change : Q
}.

(** The variables the loop updates: [portfolio_data], [total_value],
    [total_daily_change]. *)
Definition totals : Type := (list stock * Q * Q)%type.

Definition loop_body (w : world) (st : totals) (item : string * Q)
  : prog totals :=
  let '(portfolio_data, total_value, total_daily_change) := st in
  let '(symbol, shares) := item in
  print ("Fetching " ++ symbol ++ "...") ;;
  data <- get_stock_data w symbol ;;
  match data with
  | Some data =>
      let value := (data_price data * shares)%Q in
      let daily_change := (data_change data * shares)%Q in
      print ("  " ++ symbol ++ ": $" ++ format_2f false false (data_price data)
             ++ " (" ++ format_2f true false (data_change_pct data) ++ "%)") ;;
      ret ((portfolio_data ++ [ {| stock_symbol := symbol;
                                   stock_shares := shares;
                                   stock_price := data_price data;
                                   stock_value := value;
                                   stock_change := data_change data;
                                   stock_change_pct := data_change_pct data;
                                   stock_daily_change := daily_change |} ])%list,
           (total_value + value)%Q,
           (total_daily_change + daily_change)%Q)
  | None => ret st
  end.

(** Line 94: the conditional expression that gives [total_change_pct]. *)
Definition total_change_pct_of (total_value total_daily_change : Q) : Q :=
  if Qlt_bool 0 total_value
  then ((total_daily_change / (total_value - total_daily_change)) * 100)%Q
  else 0%Q.

(** The divisor line 94 divides by, when its division is evaluated at all:
    the conditional expression evaluates its first branch only when its
    test [total_value > 0] holds. *)
Definition pct_divisor (total_value total_daily_change : Q) : option Q :=
  if Qlt_bool 0 total_value
  then Some (total_value - total_daily_change)%Q
  else None.

Definition calculate_portfolio (w : world) : prog (list stock * Q * Q * Q) :=
  print ("Fetching stock prices..." ++ nl) ;;
  st <- for_each (loop_body w) (PORTFOLIO w) ([], 0%Q, 0%Q) ;;
  let '(portfolio_data, total_value, total_daily_change) := st in
  let total_change_pct := total_change_pct_of total_value total_daily_change in
  print (nl ++ "Total Portfolio Value: $" ++ format_2f false true total_value) ;;
  print ("Daily Change: $" ++ format_2f true true total_daily_change
         ++ " (" ++ format_2f true false total_change_pct ++ "%)") ;;
  ret (portfolio_data, total_value, total_daily_change, total_change_pct).

(* ===================================================================== *)
(** ** format_message, send_to_slack, main *)
(* ===================================================================== *)

(** The first [if] of [format_message]: the pair ([emoji], [trend]). *)
Definition performance (total_daily_change : Q) : string * string :=
  if Qlt_bool 0 total_daily_change then (emoji_up, "up")
  else if Qlt_bool total_daily_change 0 then (emoji_down, "down")
  else (emoji_flat, "flat").

Definition trend (total_daily_change : Q) : string :=
  snd (performance total_daily_change).

(** The same [if] on the binary64 number [format_message] is given, with
    the comparisons of IEEE 754: [total_daily_change > 0] and
    [total_daily_change < 0] are both false of a NaN, which the [else]
    branch then takes. *)
Definition performance_b64 (total_daily_change : PrimFloat.float)
  : string * string :=
  if PrimFloat.ltb PrimFloat.zero total_daily_change then (emoji_up, "up")
  else if PrimFloat.ltb total_daily_change PrimFloat.zero
       then (emoji_down, "down")
  else (emoji_flat, "flat").

Definition trend_b64 (total_daily_change : PrimFloat.float) : string :=
  snd (performance_b64 total_daily_change).

(** [change_emoji] of the loop over the holdings. *)
Definition change_emoji (s : stock) : string :=
  if Qle_bool 0 (stock_change s) then marker_green else marker_red.

Section Report.

(** Python's [str] on a share quantity, which the replacement field
    [{stock['shares']}] applies: the digits of an int, the shortest
    round-trip decimal of a float. *)
Variable py_str : Q -> string.

(** The three [message +=] of the loop body. *)
Definition holding_section (s : stock) : string :=
  (change_emoji s ++ " *" ++ stock_symbol s ++ "*" ++ nl)
  ++ ("  " ++ py_str (stock_shares s) ++ " shares @ $"
      ++ format_2f false false (stock_price s)
      ++ " = $" ++ format_2f false true (stock_value s) ++ nl)
  ++ ("  Today: $" ++ format_2f true false (stock_change s)
      ++ " (" ++ format_2f true false (stock_change_pct s) ++ "%)" ++ nl ++ nl).

Definition header (w : world) (total_daily_change : Q) : string :=
  fst (performance total_daily_change) ++ " *Portfolio Update - "
  ++ strftime_now w "%B %d, %Y at %I:%M %p EST" ++ "*" ++ nl ++ nl.

Definition summary (total_value total_daily_change total_change_pct : Q)
  : string :=
  (rule ++ nl)
  ++ ("*Total Portfolio Value:* $" ++ format_2f false true total_value ++ nl)
  ++ ("*Today's Change:* $" ++ format_2f true true total_daily_change
      ++ " (" ++ format_2f true false total_change_pct ++ "%)" ++ nl)
  ++ ("*Trend:* " ++ capitalize (trend total_daily_change)).

Definition format_message (w : world) (portfolio_data : list stock)
    (total_value total_daily_change total_change_pct : Q) : string :=
  let message := header w total_daily_change in
  let message :=
    fold_left (fun message s => message ++ holding_section s)
              portfolio_data message in
  message ++ summary total_value total_daily_change total_change_pct.

(** [not SLACK_WEBHOOK_URL] is true of [None] and of the empty string. *)
Definition configured (w : world) : option string :=
  match SLACK_WEBHOOK_URL w with
  | None => None
  | Some EmptyString => None
  | Some url => Some url
  end.

Definition slack_data (message : string) : list (string * string) :=
  [ ("text", message);
    ("username", "Stock Tracker Bot");
    ("icon_emoji", ":chart_with_upwards_trend:") ].

Definition send_to_slack (w : world) (message : string) : prog bool :=
  match configured w with
  | None =>
      print (nl ++ "Error: SLACK_WEBHOOK_URL environment variable not set!") ;;
      sys_exit 1
  | Some url =>
      let req := {| req_url := url;
                    req_json := slack_data message;
                    req_headers := [("Content-Type", "application/json")];
                    req_timeout := 10 |} in
      print (nl ++ "Sending to Slack...") ;;
      emit (Post req) ;;
      match post w req with
      | Response status_code text =>
          if (status_code =? 200)%Z then
            print "Successfully sent to Slack!" ;;
            ret true
          else
            print ("Slack Error: Status code " ++ NilZero.string_of_int (Z.to_int status_code)) ;;
            print ("Response: " ++ text) ;;
            ret false
      | PostRaises e =>
          print ("Error sending to Slack: " ++ e) ;;
          ret false
      end
  end.

Definition main (w : world) : prog unit :=
  print (repeat_string "=" 50) ;;
  print "STOCK TRACKER BOT STARTING" ;;
  print (repeat_string "=" 50) ;;
  print ("Current time: " ++ strftime_now w "%Y-%m-%d %H:%M:%S" ++ nl) ;;
  r <- calculate_portfolio w ;;
  let '(portfolio_data, total_value, total_daily_change, total_change_pct) := r in
  let message :=
    format_message w portfolio_data total_value total_daily_change
                   total_change_pct in
  success <- send_to_slack w message ;;
  print (nl ++ repeat_string "=" 50) ;;
  (if success : bool then print "BOT COMPLETED SUCCESSFULLY"
   else print "BOT COMPLETED WITH ERRORS") ;;
  print (repeat_string "=" 50) ;;
  sys_exit (if success : bool then 0%Z else 1%Z).

End Report.

(* ===================================================================== *)
(** ** Notions the statements use *)
(* ===================================================================== *)

(** The value a program returns, when it returns. *)
Definition returns {A : Type} (m : prog A) (a : A) : Prop :=
  result m = Returned a.

(** What [get_stock_data] hands to its caller. *)
Definition quote_of (w : world) (symbol : string) : option quote :=
  match result (get_stock_data w symbol) with
  | Returned data => data
  | Exited _ => None
  end.

(** The fetch of a symbol fails: the provider raises, or the history is
    empty. *)
Definition fetch_fails (w : world) (symbol : string) : bool :=
  match history w symbol with
  | HistoryRaises _ => true
  | Closes [] => true
  | Closes (_ :: _) => false
  end.

(** The entry of [portfolio_data] built from an item of the table and its
    quote. *)
Definition stock_of (item : string * Q) (data : quote) : stock :=
  {| stock_symbol := fst item;
     stock_shares := snd item;
     stock_price := data_price data;
     stock_value := (data_price data * snd item)%Q;
     stock_change := data_change data;
     stock_change_pct := data_change_pct data;
     stock_daily_change := (data_change data * snd item)%Q |}.

(** The entries the loop appends for a list of items. *)
Definition included (w : world) (items : list (string * Q)) : list stock :=
  flat_map (fun item => match quote_of w (fst item) with
                        | Some data => [stock_of item data]
                        | None => []
                        end) items.

(** Python's [sum]: from 0, left to right. *)
Definition Qsum (l : list Q) : Q := fold_left Qplus l 0%Q.

(** The same world with another table of holdings. *)
Definition with_portfolio (w : world) (items : list (string * Q)) : world :=
  {| SLACK_WEBHOOK_URL := SLACK_WEBHOOK_URL w;
     PORTFOLIO := items;
     history := history w;
     post := post w;
     strftime_now := strftime_now w |}.

(** [str] on a quantity that is an int. *)
Definition str_int (q : Q) : string := digits (Qnum q).

(** Every quantity of the table is non-negative. *)
Definition nonneg_quantities (w : world) : Prop :=
  forall symbol shares, In (symbol, shares) (PORTFOLIO w) -> (0 <= shares)%Q.

(** The guard of the total change percent as the specification words it:
    whenever total value minus total daily change is at most 0, the
    percent is 0 and line 94 does not divide. *)
Definition divisor_guarded (w : world) : Prop :=
  forall data tv tdc pct,
    returns (calculate_portfolio w) (data, tv, tdc, pct) ->
    (tv - tdc <= 0)%Q ->
    (pct == 0)%Q /\ pct_divisor tv tdc = None.

(** The request [send_to_slack] makes for a message. *)
Definition slack_request (url message : string) : post_request :=
  {| req_url := url;
     req_json := slack_data message;
     req_headers := [("Content-Type", "application/json")];
     req_timeout := 10 |}.

(** The message [main] formats: [format_message] on what
    [calculate_portfolio] returns. *)
Definition report (py_str : Q -> string) (w : world) : string :=
  let data := included w (PORTFOLIO w) in
  let tv := Qsum (map stock_value data) in
  let tdc := Qsum (map stock_daily_change data) in
  format_message py_str w data tv tdc (total_change_pct_of tv tdc).

(** The trend label as the specification words it: "up" exactly when the
    total daily change is > 0, "down" exactly when it is < 0, "flat"
    exactly when it is == 0. *)
Definition trend_as_specified (total_daily_change : PrimFloat.float) : Prop :=
  (trend_b64 total_daily_change = "up" <->
   PrimFloat.ltb PrimFloat.zero total_daily_change = true) /\
  (trend_b64 total_daily_change = "down" <->
   PrimFloat.ltb total_daily_change PrimFloat.zero = true) /\
  (trend_b64 total_daily_change = "flat" <->
   PrimFloat.eqb total_daily_change PrimFloat.zero = true).

(** The run without the webhook URL as the specification words it: exit
    code 1 and no HTTP call of any kind. *)
Definition no_http_when_unset (py_str : Q -> string) (w : world) : Prop :=
  SLACK_WEBHOOK_URL w = None ->
  exit_code (main py_str w) = 1%Z /\ http_calls (trace (main py_str w)) = [].

(** The payload as the specification words it: keys [text], [username],
    [icon], and a timeout of 10 seconds. *)
Definition payload_as_specified (py_str : Q -> string) (w : world) : Prop :=
  forall req,
    In req (posts (trace (main py_str w))) ->
    map fst (req_json req) = ["text"; "username"; "icon"] /\
    req_timeout req = 10%Z.

(** Delivery as the specification words it: one POST in the run, and an
    exit code of 0 exactly when the webhook answered it with status 200,
    of 1 otherwise. *)
Definition delivery_as_specified (py_str : Q -> string) (w : world) : Prop :=
  exists req,
    posts (trace (main py_str w)) = [req] /\
    (exit_code (main py_str w) = 0%Z <->
     exists text, post w req = Response 200 text) /\
    (exit_code (main py_str w) = 0%Z \/ exit_code (main py_str w) = 1%Z).

(** The texts of a list, one after the other. *)
Definition join (l : list string) : string := fold_right append EmptyString l.

(** An entry holds the products of its price and of its price change by
    its quantity. *)
Definition entry_consistent (s : stock) : Prop :=
  stock_value s = (stock_price s * stock_shares s)%Q /\
  stock_daily_change s = (stock_change s * stock_shares s)%Q.

(** No symbol of the table closed below its previous close. *)
Definition no_price_fell (w : world) : Prop :=
  forall symbol shares pre prev last,
    In (symbol, shares) (PORTFOLIO w) ->
    history w symbol = Closes (pre ++ [prev; last]) ->
    (prev <= last)%Q.

(** Every symbol of the table closed at its previous close. *)
Definition no_price_moved (w : world) : Prop :=
  forall symbol shares pre prev last,
    In (symbol, shares) (PORTFOLIO w) ->
    history w symbol = Closes (pre ++ [prev; last]) ->
    (prev == last)%Q.

(** The console lines [main] prints before [calculate_portfolio] and after
    [send_to_slack]. *)
Definition opening_lines (w : world) : list event :=
  [ Print (repeat_string "=" 50);
    Print "STOCK TRACKER BOT STARTING";
    Print (repeat_string "=" 50);
    Print ("Current time: " ++ strftime_now w "%Y-%m-%d %H:%M:%S" ++ nl) ].

Definition closing_lines (success : bool) : list event :=
  [ Print (nl ++ repeat_string "=" 50);
    Print (if success then "BOT COMPLETED SUCCESSFULLY"
           else "BOT COMPLETED WITH ERRORS");
    Print (repeat_string "=" 50) ].

(* ===================================================================== *)
(** ** Sample worlds *)
(* ===================================================================== *)

Definition sample_clock (fmt : string) : string :=
  if String.eqb fmt "%Y-%m-%d %H:%M:%S" then "2024-03-01 16:30:00"
  else "March 01, 2024 at 04:30 PM EST".

(** Holdings [{A: 2, B: 1}], A closing at 10 then 12, B at 50 then 50; the
    webhook answers 200. *)
Definition world_AB : world :=
  {| SLACK_WEBHOOK_URL := Some "https://hooks.example/services/T";
     PORTFOLIO := [("A", 2%Q); ("B", 1%Q)];
     history := fun symbol =>
       if String.eqb symbol "A" then Closes [10%Q; 12%Q]
       else if String.eqb symbol "B" then Closes [50%Q; 50%Q]
       else HistoryRaises "No data found, symbol may be delisted";
     post := fun _ => Response 200 "ok";
     strftime_now := sample_clock |}.

(** One unit of a future whose close went from -37.63 to 10.01 (crude oil,
    20 and 21 April 2020). *)
Definition world_negative_close : world :=
  {| SLACK_WEBHOOK_URL := Some "https://hooks.example/services/T";
     PORTFOLIO := [("CL=F", 1%Q)];
     history := fun symbol =>
       if String.eqb symbol "CL=F" then Closes [(-37.63)%Q; 10.01%Q]
       else HistoryRaises "No data found, symbol may be delisted";
     post := fun _ => Response 200 "ok";
     strftime_now := sample_clock |}.

(** The world of [world_AB] without the environment variable. *)
Definition world_unset : world :=
  {| SLACK_WEBHOOK_URL := None;
     PORTFOLIO := PORTFOLIO world_AB;
     history := history world_AB;
     post := post world_AB;
     strftime_now := sample_clock |}.

(** Both fetches fail: the provider raises for A and has no row for B. *)
Definition world_all_fail : world :=
  {| SLACK_WEBHOOK_URL := Some "https://hooks.example/services/T";
     PORTFOLIO := [("A", 2%Q); ("B", 1%Q)];
     history := fun symbol =>
       if String.eqb symbol "A" then HistoryRaises "Connection reset by peer"
       else Closes [];
     post := fun _ => Response 200 "ok";
     strftime_now := sample_clock |}.

(** The world of [world_AB] with a webhook that answers 500. *)
Definition world_500 : world :=
  {| SLACK_WEBHOOK_URL := SLACK_WEBHOOK_URL world_AB;
     PORTFOLIO := PORTFOLIO world_AB;
     history := history world_AB;
     post := fun _ => Response 500 "internal error";
     strftime_now := sample_clock |}.

(** A has a single day of history and B closed where it closed the day
    before. *)
Definition world_quiet : world :=
  {| SLACK_WEBHOOK_URL := Some "https://hooks.example/services/T";
     PORTFOLIO := [("A", 2%Q); ("B", 1%Q)];
     history := fun symbol =>
       if String.eqb symbol "A" then Closes [12%Q]
       else Closes [50%Q; 50%Q];
     post := fun _ => Response 200 "ok";
     strftime_now := sample_clock |}.

(** The world of [world_AB] with an empty environment variable. *)
Definition world_empty_url : world :=
  {| SLACK_WEBHOOK_URL := Some EmptyString;
     PORTFOLIO := PORTFOLIO world_AB;
     history := history world_AB;
     post := post world_AB;
     strftime_now := sample_clock |}.

(* ===================================================================== *)
(** ** The model at work *)
(* ===================================================================== *)

Example format_2f_plus_comma :
  format_2f true true 1234567.891%Q = "+1,234,567.89".
Proof. reflexivity. Qed.

Example format_2f_negative : format_2f false true (-1234.5)%Q = "-1,234.50".
Proof. reflexivity. Qed.

Example format_2f_ties_to_even :
  format_2f false false 0.125%Q = "0.12" /\
  format_2f false false 0.375%Q = "0.38".
Proof. split; reflexivity. Qed.

Example format_2f_small_negative : format_2f true false (-0.001)%Q = "-0.00".
Proof. reflexivity. Qed.

Example capitalize_flat : capitalize "flat" = "Flat".
Proof. reflexivity. Qed.

(** The report of the run over A and B. *)
Example report_AB :
  report str_int world_AB =
  emoji_up ++ " *Portfolio Update - March 01, 2024 at 04:30 PM EST*" ++ nl
  ++ nl
  ++ marker_green ++ " *A*" ++ nl
  ++ "  2 shares @ $12.00 = $24.00" ++ nl
  ++ "  Today: $+2.00 (+20.00%)" ++ nl
  ++ nl
  ++ marker_green ++ " *B*" ++ nl
  ++ "  1 shares @ $50.00 = $50.00" ++ nl
  ++ "  Today: $+0.00 (+0.00%)" ++ nl
  ++ nl
  ++ rule ++ nl
  ++ "*Total Portfolio Value:* $74.00" ++ nl
  ++ "*Today's Change:* $+4.00 (+5.71%)" ++ nl
  ++ "*Trend:* Up".
Proof. vm_compute. reflexivity. Qed.

(** The console and the requests of [calculate_portfolio] when both
    fetches fail. *)
Example calculate_portfolio_all_fail :
  calculate_portfolio world_all_fail =
  ([ Print ("Fetching stock prices..." ++ nl);
     Print "Fetching A..."; Fetch "A";
     Print "Error fetching A: Connection reset by peer";
     Print "Fetching B..."; Fetch "B";
     Print "No data available for B";
     Print (nl ++ "Total Portfolio Value: $0.00");
     Print "Daily Change: $+0.00 (+0.00%)" ],
   Returned ([], 0%Q, 0%Q, 0%Q)).
Proof. vm_compute. reflexivity. Qed.

(** A webhook that answers 500: the status and the body go to the console
    and [send_to_slack] returns [False]. *)
Example send_to_slack_500 :
  send_to_slack world_500 "report" =
  ([ Print (nl ++ "Sending to Slack...");
     Post (slack_request "https://hooks.example/services/T" "report");
     Print "Slack Error: Status code 500";
     Print "Response: internal error" ],
   Returned false).
Proof. vm_compute. reflexivity. Qed.

(** The figures of the run over one unit closing at -37.63 then 10.01. *)
Example negative_close_figures :
  exists data tv tdc pct,
    returns (calculate_portfolio world_negative_close) (data, tv, tdc, pct) /\
    (tv == 10.01)%Q /\ (tdc == 47.64)%Q /\ (tv - tdc == -37.63)%Q /\
    (pct == 47.64 / -37.63 * 100)%Q /\
    pct_divisor tv tdc = Some (tv - tdc)%Q.
Proof.
  do 4 eexists. split; [vm_compute; reflexivity |].
  repeat split; reflexivity.
Qed.

(** The table of the source is fetched symbol by symbol, in its order. *)
Example source_table_fetches :
  fetches (trace (calculate_portfolio
                    (with_portfolio world_all_fail PORTFOLIO_source))) =
  ["AAPL"; "MSFT"; "VOO"; "QTUM"; "QQQ"; "SPY"; "XLU"; "JAAA"; "SCHD"].
Proof. vm_compute. reflexivity. Qed.

(* ===================================================================== *)
(** ** Programs: traces and results of [bind] *)
(* ===================================================================== *)

Lemma Qlt_bool_iff (x y : Q) : Qlt_bool x y = true <-> (x < y)%Q.
Proof. unfold Qlt_bool, Qlt. apply Z.ltb_lt. Qed.

Lemma Qlt_bool_false_iff (x y : Q) : Qlt_bool x y = false <-> (y <= x)%Q.
Proof. unfold Qlt_bool, Qle. apply Z.ltb_ge. Qed.

Lemma result_bind {A B : Type} (m : prog A) (k : A -> prog B) :
  result (bind m k) =
  match result m with
  | Returned a => result (k a)
  | Exited c => Exited c
  end.
Proof.
  destruct m as [t [a | c]]; simpl; [destruct (k a) |]; reflexivity.
Qed.

Lemma trace_bind {A B : Type} (m : prog A) (k : A -> prog B) :
  trace (bind m k) =
  (trace m ++ match result m with
              | Returned a => trace (k a)
              | Exited _ => []
              end)%list.
Proof.
  destruct m as [t [a | c]]; simpl; [destruct (k a) | rewrite app_nil_r];
    reflexivity.
Qed.

Lemma fetches_app (t u : list event) :
  fetches (t ++ u) = (fetches t ++ fetches u)%list.
Proof. apply flat_map_app. Qed.

Lemma posts_app (t u : list event) :
  posts (t ++ u) = (posts t ++ posts u)%list.
Proof. apply flat_map_app. Qed.

Lemma http_calls_app (t u : list event) :
  http_calls (t ++ u) = (http_calls t ++ http_calls u)%list.
Proof. apply filter_app. Qed.

Lemma fetches_http_calls (t : list event) :
  fetches (http_calls t) = fetches t.
Proof.
  induction t as [| [line | symbol | req] t IH]; simpl;
    [reflexivity | | f_equal |]; exact IH.
Qed.

Lemma posts_http_calls (t : list event) : posts (http_calls t) = posts t.
Proof.
  induction t as [| [line | symbol | req] t IH]; simpl;
    [reflexivity | | | f_equal]; exact IH.
Qed.

Lemma fetches_fetch_all (items : list (string * Q)) :
  fetches (fetch_all items) = map fst items.
Proof.
  induction items as [| item items IH]; simpl; [| f_equal]; auto.
Qed.

Lemma posts_fetch_all (items : list (string * Q)) :
  posts (fetch_all items) = [].
Proof. induction items as [| item items IH]; simpl; auto. Qed.

(* ===================================================================== *)
(** ** get_stock_data *)
(* ===================================================================== *)

Section Aggregation.

Variable w : world.

Lemma get_stock_data_returns (symbol : string) :
  returns (get_stock_data w symbol) (quote_of w symbol).
Proof.
  unfold returns, quote_of, get_stock_data.
  destruct (history w symbol) as [[| c1 [| c2 hist]] | e]; reflexivity.
Qed.

Lemma get_stock_data_requests (symbol : string) :
  http_calls (trace (get_stock_data w symbol)) = [Fetch symbol].
Proof.
  unfold get_stock_data.
  destruct (history w symbol) as [[| c1 [| c2 hist]] | e]; reflexivity.
Qed.

Lemma iloc_neg_last (pre : list Q) (x : Q) : iloc_neg (pre ++ [x]) 1 = x.
Proof.
  unfold iloc_neg. rewrite length_app; simpl.
  replace (List.length pre + 1 - 1)%nat with (List.length pre) by lia.
  rewrite nth_middle. reflexivity.
Qed.

Lemma iloc_neg_previous (pre : list Q) (x y : Q) :
  iloc_neg (pre ++ [x; y]) 2 = x.
Proof.
  unfold iloc_neg. rewrite length_app; simpl.
  replace (List.length pre + 2 - 2)%nat with (List.length pre) by lia.
  rewrite nth_middle. reflexivity.
Qed.

Lemma quote_of_failure (symbol : string) :
  fetch_fails w symbol = true <-> quote_of w symbol = None.
Proof.
  unfold fetch_fails, quote_of, get_stock_data.
  destruct (history w symbol) as [[| c1 [| c2 hist]] | e]; simpl;
    split; intros H; (reflexivity || discriminate H).
Qed.

Lemma quote_of_two_days (symbol : string) (pre : list Q)
    (prev last : Q) :
  history w symbol = Closes (pre ++ [prev; last]) ->
  quote_of w symbol =
  Some {| data_symbol := symbol;
          data_price := last;
          data_change := (last - prev)%Q;
          data_change_pct := (((last - prev) / prev) * 100)%Q |}.
Proof.
  intros H. unfold quote_of, get_stock_data. rewrite H.
  assert (L1 : (List.length (pre ++ [prev; last]) <? 1)%nat = false).
  { apply Nat.ltb_ge. rewrite length_app; simpl; lia. }
  assert (L2 : (2 <=? List.length (pre ++ [prev; last]))%nat = true).
  { apply Nat.leb_le. rewrite length_app; simpl; lia. }
  assert (E1 : iloc_neg (pre ++ [prev; last]) 1 = last).
  { change (pre ++ [prev; last])%list with (pre ++ [prev] ++ [last])%list.
    rewrite app_assoc. apply iloc_neg_last. }
  cbv beta iota delta [bind emit result snd].
  rewrite L1, L2, E1, iloc_neg_previous. reflexivity.
Qed.

Lemma quote_of_one_day (symbol : string) (last : Q) :
  history w symbol = Closes [last] ->
  quote_of w symbol =
  Some {| data_symbol := symbol;
          data_price := last;
          data_change := 0%Q;
          data_change_pct := 0%Q |}.
Proof.
  intros H. unfold quote_of, get_stock_data. rewrite H. reflexivity.
Qed.

(* ===================================================================== *)
(** ** The loop of calculate_portfolio *)
(* ===================================================================== *)

Lemma loop_body_returns (data : list stock) (tv tdc : Q)
    (item : string * Q) :
  returns (loop_body w (data, tv, tdc) item)
    match quote_of w (fst item) with
    | Some q => ((data ++ [stock_of item q])%list,
                 (tv + stock_value (stock_of item q))%Q,
                 (tdc + stock_daily_change (stock_of item q))%Q)
    | None => (data, tv, tdc)
    end.
Proof.
  unfold returns, loop_body. destruct item as [symbol shares].
  rewrite !result_bind; simpl.
  rewrite (get_stock_data_returns symbol).
  destruct (quote_of w symbol) as [q |]; reflexivity.
Qed.

Lemma loop_body_requests (st : totals) (item : string * Q) :
  http_calls (trace (loop_body w st item)) = [Fetch (fst item)].
Proof.
  unfold loop_body. destruct st as [[data tv] tdc], item as [symbol shares].
  rewrite !trace_bind; simpl.
  rewrite (get_stock_data_returns symbol).
  rewrite http_calls_app, (get_stock_data_requests symbol).
  destruct (quote_of w symbol) as [q |]; reflexivity.
Qed.

Lemma loop_returns (items : list (string * Q)) :
  forall (data : list stock) (tv tdc : Q),
  returns (for_each (loop_body w) items (data, tv, tdc))
    ((data ++ included w items)%list,
     fold_left Qplus (map stock_value (included w items)) tv,
     fold_left Qplus (map stock_daily_change (included w items)) tdc).
Proof.
  unfold returns.
  induction items as [| item items IH]; intros data tv tdc; simpl.
  - rewrite app_nil_r. reflexivity.
  - rewrite result_bind, (loop_body_returns data tv tdc item).
    unfold included; simpl; fold (included w items).
    destruct (quote_of w (fst item)) as [q |]; rewrite IH; simpl.
    + rewrite <- app_assoc. reflexivity.
    + reflexivity.
Qed.

Lemma loop_requests (items : list (string * Q)) :
  forall st : totals,
  http_calls (trace (for_each (loop_body w) items st)) = fetch_all items.
Proof.
  induction items as [| item items IH]; intros st; simpl.
  - reflexivity.
  - rewrite trace_bind, http_calls_app, (loop_body_requests st item).
    destruct st as [[data tv] tdc].
    rewrite (loop_body_returns data tv tdc item).
    rewrite IH. reflexivity.
Qed.

(** [calculate_portfolio] always returns, and what it returns is read off
    the table and the quotes. *)
Lemma calculate_portfolio_returns :
  let data := included w (PORTFOLIO w) in
  let tv := Qsum (map stock_value data) in
  let tdc := Qsum (map stock_daily_change data) in
  returns (calculate_portfolio w) (data, tv, tdc, total_change_pct_of tv tdc).
Proof.
  unfold returns, calculate_portfolio.
  rewrite !result_bind; simpl.
  rewrite (loop_returns (PORTFOLIO w) [] 0%Q 0%Q); simpl.
  reflexivity.
Qed.

Lemma calculate_portfolio_requests :
  http_calls (trace (calculate_portfolio w)) = fetch_all (PORTFOLIO w).
Proof.
  unfold calculate_portfolio.
  rewrite !trace_bind; simpl.
  rewrite (loop_returns (PORTFOLIO w) [] 0%Q 0%Q); simpl.
  rewrite http_calls_app, (loop_requests (PORTFOLIO w) ([], 0%Q, 0%Q)).
  simpl. apply app_nil_r.
Qed.

Lemma calculate_portfolio_fetches :
  fetches (trace (calculate_portfolio w)) = map fst (PORTFOLIO w).
Proof.
  rewrite <- fetches_http_calls, calculate_portfolio_requests.
  apply fetches_fetch_all.
Qed.

Lemma in_included (items : list (string * Q)) (s : stock) :
  In s (included w items) <->
  exists item data,
    In item items /\ quote_of w (fst item) = Some data /\ s = stock_of item data.
Proof.
  unfold included. rewrite in_flat_map. split.
  - intros [item [Hin Hs]].
    destruct (quote_of w (fst item)) as [data |] eqn:E; simpl in Hs.
    + destruct Hs as [Hs | []]. exists item, data. auto.
    + contradiction.
  - intros [item [data [Hin [E Hs]]]]. exists item. split; [exact Hin |].
    rewrite E. left. symmetry. exact Hs.
Qed.

Lemma included_filter (items : list (string * Q)) :
  included w (filter (fun item => negb (fetch_fails w (fst item))) items) =
  included w items.
Proof.
  unfold included.
  induction items as [| item items IH]; simpl; [reflexivity |].
  destruct (fetch_fails w (fst item)) eqn:E; simpl.
  - apply quote_of_failure in E. rewrite E. exact IH.
  - rewrite IH. reflexivity.
Qed.

End Aggregation.

Lemma quote_of_with_portfolio (w : world) (items : list (string * Q))
    (symbol : string) :
  quote_of (with_portfolio w items) symbol = quote_of w symbol.
Proof. reflexivity. Qed.

Lemma included_with_portfolio (w : world) (items l : list (string * Q)) :
  included (with_portfolio w items) l = included w l.
Proof. reflexivity. Qed.

(* ===================================================================== *)
(** ** Per-holding figures and totals *)
(* ===================================================================== *)

(** C4. A holding whose fetch returns at least two closes enters
    [portfolio_data] with value = latest close * quantity and daily change
    = (latest close - previous close) * quantity, and so does every entry
    of that symbol; with a single close the entry has value = close *
    quantity and a daily change and a change percent of 0. *)
Theorem C4_value_and_daily_change (w : world) (symbol : string) (shares : Q) :
  In (symbol, shares) (PORTFOLIO w) ->
  exists data tv tdc pct,
    returns (calculate_portfolio w) (data, tv, tdc, pct) /\
    (forall pre prev last,
        history w symbol = Closes (pre ++ [prev; last]) ->
        (exists s, In s data /\
                   stock_symbol s = symbol /\ stock_shares s = shares) /\
        (forall s, In s data -> stock_symbol s = symbol ->
                   stock_price s = last /\
                   stock_value s = (last * stock_shares s)%Q /\
                   stock_change s = (last - prev)%Q /\
                   stock_daily_change s =
                     ((last - prev) * stock_shares s)%Q)) /\
    (forall last,
        history w symbol = Closes [last] ->
        (exists s, In s data /\
                   stock_symbol s = symbol /\ stock_shares s = shares) /\
        (forall s, In s data -> stock_symbol s = symbol ->
                   stock_price s = last /\
                   stock_value s = (last * stock_shares s)%Q /\
                   stock_change s = 0%Q /\
                   (stock_daily_change s == 0)%Q /\
                   stock_change_pct s = 0%Q)).
Proof.
  intros Hin.
  do 4 eexists. split; [apply calculate_portfolio_returns |].
  split.
  - intros pre prev last H.
    pose proof (quote_of_two_days w symbol pre prev last H) as E.
    split.
    + eexists. split.
      * apply in_included. exists (symbol, shares). eexists.
        split; [exact Hin |]. split; [exact E | reflexivity].
      * split; reflexivity.
    + intros s Hs Hsym.
      apply in_included in Hs. destruct Hs as [item [data [_ [E' ->]]]].
      simpl in Hsym. rewrite Hsym, E in E'. injection E' as <-.
      simpl. repeat split; reflexivity.
  - intros last H.
    pose proof (quote_of_one_day w symbol last H) as E.
    split.
    + eexists. split.
      * apply in_included. exists (symbol, shares). eexists.
        split; [exact Hin |]. split; [exact E | reflexivity].
      * split; reflexivity.
    + intros s Hs Hsym.
      apply in_included in Hs. destruct Hs as [item [data [_ [E' ->]]]].
      simpl in Hsym. rewrite Hsym, E in E'. injection E' as <-.
      simpl. repeat split; reflexivity.
Qed.

Lemma C4_value_and_daily_change_witness :
  exists data tv tdc pct,
    returns (calculate_portfolio world_AB) (data, tv, tdc, pct) /\
    exists s, In s data /\ stock_symbol s = "A" /\
              stock_value s = (12 * stock_shares s)%Q /\
              stock_daily_change s = ((12 - 10) * stock_shares s)%Q.
Proof.
  destruct (C4_value_and_daily_change world_AB "A" 2%Q)
    as [data [tv [tdc [pct [R [H2 _]]]]]].
  - simpl. left. reflexivity.
  - exists data, tv, tdc, pct. split; [exact R |].
    destruct (H2 [] 10%Q 12%Q eq_refl) as [[s [Hs [Hsym _]]] Hall].
    exists s. destruct (Hall s Hs Hsym) as [_ [Hv [_ Hd]]].
    repeat split; assumption.
Defined.

(** C5. [calculate_portfolio] returns as total value the sum of the values
    of the entries of [portfolio_data] and as total daily change the sum of
    their daily changes.  For holdings A: 2 and B: 1 with A closing at 10
    then 12 and B at 50 then 50, it returns total value 74, total daily
    change 4 and total change percent 4/70 * 100, and the trend is "up". *)
Theorem C5_totals_are_sums (w : world) :
  exists data tv tdc pct,
    returns (calculate_portfolio w) (data, tv, tdc, pct) /\
    tv = Qsum (map stock_value data) /\
    tdc = Qsum (map stock_daily_change data) /\
    (PORTFOLIO w = [("A", 2%Q); ("B", 1%Q)] ->
     history w "A" = Closes [10%Q; 12%Q] ->
     history w "B" = Closes [50%Q; 50%Q] ->
     map stock_value data = [24%Q; 50%Q] /\
     map stock_daily_change data = [4%Q; 0%Q] /\
     tv = 74%Q /\ tdc = 4%Q /\
     (pct == 4 / 70 * 100)%Q /\
     trend tdc = "up").
Proof.
  do 4 eexists. split; [apply calculate_portfolio_returns |].
  split; [reflexivity |]. split; [reflexivity |].
  intros HP HA HB. rewrite HP.
  unfold included; simpl.
  rewrite (quote_of_two_days w "A" [] 10%Q 12%Q HA).
  rewrite (quote_of_two_days w "B" [] 50%Q 50%Q HB).
  simpl. repeat split; reflexivity.
Qed.

Lemma C5_totals_are_sums_witness :
  exists data pct,
    returns (calculate_portfolio world_AB) (data, 74%Q, 4%Q, pct) /\
    (pct == 4 / 70 * 100)%Q.
Proof.
  destruct (C5_totals_are_sums world_AB) as [data [tv [tdc [pct [R [_ [_ H]]]]]]].
  destruct (H eq_refl eq_refl eq_refl) as [_ [_ [Htv [Htdc [Hpct _]]]]].
  exists data, pct. rewrite Htv, Htdc in R. split; assumption.
Defined.

(** C6. A holding whose fetch fails (the provider raises, or the history
    is empty) has no entry in [portfolio_data]; the loop goes on to the
    next holding, every symbol of the table being fetched, and
    [calculate_portfolio] returns; what it returns is what it returns on
    the table restricted to the holdings whose fetch succeeds. *)
Theorem C6_failed_fetch_excluded (w : world) :
  exists data tv tdc pct,
    returns (calculate_portfolio w) (data, tv, tdc, pct) /\
    fetches (trace (calculate_portfolio w)) = map fst (PORTFOLIO w) /\
    (forall s, In s data -> fetch_fails w (stock_symbol s) = false) /\
    returns
      (calculate_portfolio
         (with_portfolio w
            (filter (fun item => negb (fetch_fails w (fst item)))
                    (PORTFOLIO w))))
      (data, tv, tdc, pct).
Proof.
  do 4 eexists. split; [apply calculate_portfolio_returns |].
  split; [apply calculate_portfolio_fetches |].
  split.
  - intros s Hs. apply in_included in Hs.
    destruct Hs as [item [data [_ [E ->]]]]. simpl.
    destruct (fetch_fails w (fst item)) eqn:F; [| reflexivity].
    apply quote_of_failure in F. congruence.
  - pose proof (calculate_portfolio_returns
                  (with_portfolio w
                     (filter (fun item => negb (fetch_fails w (fst item)))
                             (PORTFOLIO w)))) as R.
    simpl in R. rewrite included_with_portfolio, included_filter in R.
    exact R.
Qed.

(* ===================================================================== *)
(** ** The guard of the total change percent *)
(* ===================================================================== *)

Lemma two_last (l : list Q) :
  (2 <= List.length l)%nat -> exists pre prev last, l = (pre ++ [prev; last])%list.
Proof.
  intros H.
  destruct (exists_last (l := l)) as [l1 [last ->]].
  { intros ->. simpl in H. lia. }
  destruct (exists_last (l := l1)) as [pre [prev ->]].
  { intros ->. simpl in H. lia. }
  exists pre, prev, last. rewrite <- app_assoc. reflexivity.
Qed.

Lemma quote_of_cases (w : world) (symbol : string) (q : quote) :
  quote_of w symbol = Some q ->
  (exists pre prev last,
      history w symbol = Closes (pre ++ [prev; last]) /\
      data_price q = last /\ data_change q = (last - prev)%Q) \/
  (exists last,
      history w symbol = Closes [last] /\
      data_price q = last /\ data_change q = 0%Q).
Proof.
  intros E.
  destruct (history w symbol) as [hist | e] eqn:H.
  - destruct hist as [| c1 [| c2 hist]].
    + unfold quote_of, get_stock_data in E. rewrite H in E. discriminate E.
    + right. exists c1. rewrite (quote_of_one_day w symbol c1 H) in E.
      injection E as <-. auto.
    + left. destruct (two_last (c1 :: c2 :: hist)) as [pre [prev [last L]]].
      { simpl. lia. }
      rewrite L in H. rewrite (quote_of_two_days w symbol pre prev last H) in E.
      injection E as <-. exists pre, prev, last. rewrite L. auto.
  - unfold quote_of, get_stock_data in E. rewrite H in E. discriminate E.
Qed.

(** C1, as amended.  The guard of line 94 tests the total value, not the
    divisor.  Whenever the total value is at most 0 the percent is 0 and
    line 94 does not divide; whenever the total value is positive line 94
    divides the total daily change by the total value less the total daily
    change, whatever the sign of that divisor; and the percent is 0
    whenever the division is not made. *)
Theorem C1_guard_on_total_value (w : world) :
  exists data tv tdc pct,
    returns (calculate_portfolio w) (data, tv, tdc, pct) /\
    ((tv <= 0)%Q -> pct = 0%Q /\ pct_divisor tv tdc = None) /\
    (forall d, pct_divisor tv tdc = Some d ->
               (0 < tv)%Q /\ d = (tv - tdc)%Q /\
               pct = (tdc / d * 100)%Q) /\
    ((0 < tv)%Q ->
     pct_divisor tv tdc = Some (tv - tdc)%Q /\
     pct = (tdc / (tv - tdc) * 100)%Q) /\
    (pct_divisor tv tdc = None -> pct = 0%Q).
Proof.
  pose proof (calculate_portfolio_returns w) as R. simpl in R.
  set (data := included w (PORTFOLIO w)) in *.
  set (tv := Qsum (map stock_value data)) in *.
  set (tdc := Qsum (map stock_daily_change data)) in *.
  exists data, tv, tdc, (total_change_pct_of tv tdc).
  split; [exact R |]. unfold total_change_pct_of, pct_divisor.
  split; [| split; [| split]].
  - intros H. apply Qlt_bool_false_iff in H. rewrite H. auto.
  - intros d Hd. destruct (Qlt_bool 0 tv) eqn:G; [| discriminate Hd].
    injection Hd as <-. apply Qlt_bool_iff in G. auto.
  - intros H. apply Qlt_bool_iff in H. rewrite H. auto.
  - destruct (Qlt_bool 0 tv); [discriminate | reflexivity].
Qed.

Lemma C1_guard_on_total_value_witness :
  exists data tv tdc pct,
    returns (calculate_portfolio world_AB) (data, tv, tdc, pct) /\
    (0 < tv)%Q /\
    pct_divisor tv tdc = Some (tv - tdc)%Q /\
    pct = (tdc / (tv - tdc) * 100)%Q.
Proof.
  destruct (C1_guard_on_total_value world_AB)
    as [data [tv [tdc [pct [R [_ [_ [P _]]]]]]]].
  assert (H : (0 < tv)%Q).
  { pose proof R as R'. unfold returns in R'. vm_compute in R'.
    injection R' as _ <- _ _. reflexivity. }
  exists data, tv, tdc, pct.
  split; [exact R |]. split; [exact H |]. exact (P H).
Defined.

(** C1 as the specification words it fails: with a previous close of
    -37.63 and a latest close of 10.01 the total value is positive, the
    total value net of the daily change is -37.63, the division is made by
    it and the percent is not 0. *)
Lemma C1_counterexample : ~ divisor_guarded world_negative_close.
Proof.
  intros G.
  pose proof (calculate_portfolio_returns world_negative_close) as R.
  simpl in R. specialize (G _ _ _ _ R).
  destruct G as [_ G]; [vm_compute; discriminate | vm_compute in G].
  discriminate G.
Qed.

(* ===================================================================== *)
(** ** send_to_slack and main *)
(* ===================================================================== *)

Lemma send_to_slack_unset (w : world) (message : string) :
  configured w = None ->
  http_calls (trace (send_to_slack w message)) = [] /\
  result (send_to_slack w message) = Exited 1.
Proof.
  intros H. unfold send_to_slack. rewrite H. split; reflexivity.
Qed.

Lemma send_to_slack_configured (w : world) (message url : string) :
  configured w = Some url ->
  http_calls (trace (send_to_slack w message)) =
    [Post (slack_request url message)] /\
  returns (send_to_slack w message)
    match post w (slack_request url message) with
    | Response status_code _ => (status_code =? 200)%Z
    | PostRaises _ => false
    end.
Proof.
  intros H. unfold returns, send_to_slack. rewrite H.
  fold (slack_request url message).
  destruct (post w (slack_request url message)) as [code text | e].
  - destruct (code =? 200)%Z; split; reflexivity.
  - split; reflexivity.
Qed.

Lemma main_requests (py_str : Q -> string) (w : world) :
  http_calls (trace (main py_str w)) =
  (fetch_all (PORTFOLIO w)
   ++ http_calls (trace (send_to_slack w (report py_str w))))%list.
Proof.
  unfold main.
  rewrite !trace_bind; simpl.
  rewrite (calculate_portfolio_returns w). fold (report py_str w).
  rewrite trace_bind, !http_calls_app, calculate_portfolio_requests.
  f_equal.
  destruct (result (send_to_slack w (report py_str w))) as [[|] | c];
    simpl; rewrite app_nil_r; reflexivity.
Qed.

Lemma main_exit_code (py_str : Q -> string) (w : world) :
  exit_code (main py_str w) =
  match result (send_to_slack w (report py_str w)) with
  | Returned true => 0%Z
  | Returned false => 1%Z
  | Exited c => c
  end.
Proof.
  unfold exit_code, main.
  rewrite !result_bind; simpl.
  rewrite (calculate_portfolio_returns w). fold (report py_str w).
  rewrite !result_bind.
  destruct (result (send_to_slack w (report py_str w))) as [[|] | c];
    reflexivity.
Qed.

Lemma main_posts (py_str : Q -> string) (w : world) :
  posts (trace (main py_str w)) =
  posts (trace (send_to_slack w (report py_str w))).
Proof.
  rewrite <- posts_http_calls, main_requests, posts_app, posts_fetch_all.
  simpl. apply posts_http_calls.
Qed.

Lemma main_fetches (py_str : Q -> string) (w : world) :
  fetches (trace (main py_str w)) = map fst (PORTFOLIO w).
Proof.
  rewrite <- fetches_http_calls, main_requests, fetches_app.
  rewrite fetches_fetch_all, fetches_http_calls.
  destruct (configured w) as [url |] eqn:E.
  - destruct (send_to_slack_configured w (report py_str w) url E) as [H _].
    rewrite <- fetches_http_calls, H. simpl. apply app_nil_r.
  - destruct (send_to_slack_unset w (report py_str w) E) as [H _].
    rewrite <- fetches_http_calls, H. simpl. apply app_nil_r.
Qed.

(* ===================================================================== *)
(** ** The run without a webhook URL *)
(* ===================================================================== *)

(** C2, as amended.  When SLACK_WEBHOOK_URL is unset (or empty) the run
    exits with code 1 and makes no webhook POST; its HTTP calls are the
    market-data fetches, one per holding of the table in the table's
    order, all made before the exit. *)
Theorem C2_unset_url_exits_after_fetching (py_str : Q -> string) (w : world) :
  configured w = None ->
  exit_code (main py_str w) = 1%Z /\
  posts (trace (main py_str w)) = [] /\
  fetches (trace (main py_str w)) = map fst (PORTFOLIO w) /\
  http_calls (trace (main py_str w)) = fetch_all (PORTFOLIO w).
Proof.
  intros H.
  destruct (send_to_slack_unset w (report py_str w) H) as [T R].
  split; [| split; [| split]].
  - rewrite main_exit_code, R. reflexivity.
  - rewrite main_posts, <- posts_http_calls, T. reflexivity.
  - apply main_fetches.
  - rewrite main_requests, T. apply app_nil_r.
Qed.

Lemma C2_unset_url_exits_after_fetching_witness :
  exit_code (main str_int world_unset) = 1%Z /\
  posts (trace (main str_int world_unset)) = [] /\
  fetches (trace (main str_int world_unset)) = ["A"; "B"] /\
  http_calls (trace (main str_int world_unset)) = [Fetch "A"; Fetch "B"].
Proof.
  apply (C2_unset_url_exits_after_fetching str_int world_unset).
  reflexivity.
Defined.

(** C2 as the specification words it fails: without the variable, the run
    over the holdings A and B has fetched both before it exits. *)
Lemma C2_counterexample : ~ no_http_when_unset str_int world_unset.
Proof.
  intros H. destruct (H eq_refl) as [_ C].
  vm_compute in C. discriminate C.
Qed.

(* ===================================================================== *)
(** ** The payload of the POST *)
(* ===================================================================== *)

(** C3, as amended.  The body of every POST of a run is the object with
    the keys [text], [username] and [icon_emoji], [text] holding the
    formatted report; the POST has a timeout of 10 seconds. *)
Theorem C3_payload (py_str : Q -> string) (w : world) (req : post_request) :
  In req (posts (trace (main py_str w))) ->
  map fst (req_json req) = ["text"; "username"; "icon_emoji"] /\
  req_json req = [ ("text", report py_str w);
                   ("username", "Stock Tracker Bot");
                   ("icon_emoji", ":chart_with_upwards_trend:") ] /\
  req_timeout req = 10%Z.
Proof.
  rewrite main_posts. intros H.
  destruct (configured w) as [url |] eqn:E.
  - destruct (send_to_slack_configured w (report py_str w) url E) as [T _].
    rewrite <- posts_http_calls, T in H. simpl in H.
    destruct H as [<- | []]. repeat split; reflexivity.
  - destruct (send_to_slack_unset w (report py_str w) E) as [T _].
    rewrite <- posts_http_calls, T in H. destruct H.
Qed.

Lemma C3_payload_witness :
  exists req,
    posts (trace (main str_int world_AB)) = [req] /\
    map fst (req_json req) = ["text"; "username"; "icon_emoji"] /\
    req_timeout req = 10%Z.
Proof.
  exists (slack_request "https://hooks.example/services/T"
                        (report str_int world_AB)).
  split; [reflexivity |].
  destruct (C3_payload str_int world_AB
              (slack_request "https://hooks.example/services/T"
                             (report str_int world_AB)))
    as [K [_ T]].
  - left. reflexivity.
  - split; assumption.
Defined.

(** C3 as the specification words it fails: the third key of the body
    posted is [icon_emoji], not [icon]. *)
Lemma C3_counterexample : ~ payload_as_specified str_int world_AB.
Proof.
  intros H.
  destruct (H (slack_request "https://hooks.example/services/T"
                             (report str_int world_AB))) as [K _].
  - left. reflexivity.
  - vm_compute in K. discriminate K.
Qed.

(* ===================================================================== *)
(** ** The text of the report *)
(* ===================================================================== *)

Lemma append_assoc (a b c : string) : (a ++ b) ++ c = a ++ b ++ c.
Proof. induction a as [| x a IH]; simpl; [| rewrite IH]; reflexivity. Qed.

Lemma append_empty_r (a : string) : a ++ EmptyString = a.
Proof. induction a as [| x a IH]; simpl; [| rewrite IH]; reflexivity. Qed.

Lemma fold_left_sections (f : stock -> string) (data : list stock) :
  forall message : string,
    fold_left (fun message s => message ++ f s) data message =
    message ++ join (map f data).
Proof.
  induction data as [| s data IH]; intros message; simpl.
  - symmetry. apply append_empty_r.
  - rewrite IH, append_assoc. reflexivity.
Qed.

(** The message is the header, one section per entry of [portfolio_data]
    in order, and the summary. *)
Lemma format_message_sections (py_str : Q -> string) (w : world)
    (data : list stock) (tv tdc pct : Q) :
  format_message py_str w data tv tdc pct =
  header w tdc ++ join (map (holding_section py_str) data)
  ++ summary tv tdc pct.
Proof.
  unfold format_message. rewrite fold_left_sections. apply append_assoc.
Qed.

Lemma holding_section_starts_with_marker (py_str : Q -> string) (s : stock) :
  exists text,
    holding_section py_str s =
    change_emoji s ++ " *" ++ stock_symbol s ++ "*" ++ text.
Proof.
  eexists. unfold holding_section. rewrite !append_assoc. reflexivity.
Qed.

Lemma Prim2SF_zero :
  FloatOps.Prim2SF PrimFloat.zero = SpecFloat.S754_zero false.
Proof. reflexivity. Qed.

(** A binary64 number is above zero, below zero, equal to zero or a NaN,
    and only one of the four. *)
Lemma b64_sign_cases (t : PrimFloat.float) :
  (PrimFloat.ltb PrimFloat.zero t = true /\
   PrimFloat.ltb t PrimFloat.zero = false /\
   PrimFloat.eqb t PrimFloat.zero = false /\ PrimFloat.is_nan t = false) \/
  (PrimFloat.ltb PrimFloat.zero t = false /\
   PrimFloat.ltb t PrimFloat.zero = true /\
   PrimFloat.eqb t PrimFloat.zero = false /\ PrimFloat.is_nan t = false) \/
  (PrimFloat.ltb PrimFloat.zero t = false /\
   PrimFloat.ltb t PrimFloat.zero = false /\
   PrimFloat.eqb t PrimFloat.zero = true /\ PrimFloat.is_nan t = false) \/
  (PrimFloat.ltb PrimFloat.zero t = false /\
   PrimFloat.ltb t PrimFloat.zero = false /\
   PrimFloat.eqb t PrimFloat.zero = false /\ PrimFloat.is_nan t = true).
Proof.
  unfold PrimFloat.is_nan.
  rewrite !FloatAxioms.ltb_spec, !FloatAxioms.eqb_spec, Prim2SF_zero.
  unfold SpecFloat.SFltb, SpecFloat.SFeqb.
  destruct (FloatOps.Prim2SF t) as [s | s | | s m e]; simpl.
  - right; right; left. auto.
  - destruct s; simpl; [right; left | left]; auto.
  - right; right; right. auto.
  - rewrite Z.compare_refl, Pos.compare_cont_refl.
    destruct s; simpl; [right; left | left]; auto.
Qed.

(** C7, as amended.  On the binary64 number it is given, the trend label
    of [format_message] is "up" exactly when the total daily change is
    > 0, "down" exactly when it is < 0, and "flat" in the remaining cases,
    which are two: the total daily change is == 0, or it is a NaN, of
    which none of the three comparisons holds.  The label is always one of
    the three. *)
Theorem C7_trend_label (total_daily_change : PrimFloat.float) :
  (trend_b64 total_daily_change = "up" <->
   PrimFloat.ltb PrimFloat.zero total_daily_change = true) /\
  (trend_b64 total_daily_change = "down" <->
   PrimFloat.ltb total_daily_change PrimFloat.zero = true) /\
  (trend_b64 total_daily_change = "flat" <->
   PrimFloat.eqb total_daily_change PrimFloat.zero = true \/
   PrimFloat.is_nan total_daily_change = true) /\
  (trend_b64 total_daily_change = "up" \/
   trend_b64 total_daily_change = "down" \/
   trend_b64 total_daily_change = "flat").
Proof.
  unfold trend_b64, performance_b64.
  destruct (b64_sign_cases total_daily_change)
    as [[U [D [E N]]] | [[U [D [E N]]] | [[U [D [E N]]] | [U [D [E N]]]]]];
    rewrite U, ?D, E, N; simpl;
    (split; [| split; [| split]]);
    try (split; intros H; try reflexivity; try discriminate H;
         try (destruct H as [H | H]; discriminate H); auto);
    auto.
Qed.

(** C7 as the specification words it fails: of a NaN total daily change
    the label is "flat", and the NaN is not == 0. *)
Lemma C7_counterexample : ~ trend_as_specified PrimFloat.nan.
Proof.
  intros [_ [_ [H _]]]. specialize (H eq_refl).
  vm_compute in H. discriminate H.
Qed.

(** C9. The marker of a holding's section is the green one exactly when
    the holding's price change is at least 0, the red one exactly when it
    is negative; a change of zero gets the green marker.  Every section of
    the message starts with the marker of its holding. *)
Theorem C9_marker (s : stock) :
  (change_emoji s = marker_green <-> (0 <= stock_change s)%Q) /\
  (change_emoji s = marker_red <-> (stock_change s < 0)%Q) /\
  ((stock_change s == 0)%Q -> change_emoji s = marker_green) /\
  forall py_str,
    (exists text,
        holding_section py_str s =
        change_emoji s ++ " *" ++ stock_symbol s ++ "*" ++ text) /\
    forall w data tv tdc pct,
      format_message py_str w data tv tdc pct =
      header w tdc ++ join (map (holding_section py_str) data)
      ++ summary tv tdc pct.
Proof.
  split; [| split; [| split]];
    try (intros; split;
         [apply holding_section_starts_with_marker
         | intros; apply format_message_sections]);
    unfold change_emoji;
    (destruct (Qle_bool 0 (stock_change s)) eqn:G;
     [apply Qle_bool_iff in G
     | assert (L : (stock_change s < 0)%Q)
         by (apply Qnot_le_lt; intros H; apply Qle_bool_iff in H; congruence)]);
    try (split; intros H; try discriminate H; try reflexivity; lra);
    intros H; try reflexivity; lra.
Qed.

(* ===================================================================== *)
(** ** Delivery and the exit code *)
(* ===================================================================== *)

(** C8, as amended.  In a run whose webhook URL is configured exactly one
    POST is made, whatever the webhook answers, and in a run whose URL is
    not configured none is made and the exit code is 1; no run makes a
    second POST.  [send_to_slack] returns [True] when the webhook responds
    with status 200 and [False] when it responds with another status or
    the POST raises, so delivery succeeds exactly when the response has
    status 200; the exit code of the process is 0 in the first case and 1
    in the two others. *)
Theorem C8_delivery (py_str : Q -> string) (w : world) :
  let message := report py_str w in
  (forall url,
      configured w = Some url ->
      let req := slack_request url message in
      posts (trace (main py_str w)) = [req] /\
      (exists success,
          returns (send_to_slack w message) success /\
          (success = true <-> exists text, post w req = Response 200 text) /\
          exit_code (main py_str w) = (if success then 0 else 1)%Z) /\
      (forall code text,
          post w req = Response code text -> code <> 200%Z ->
          returns (send_to_slack w message) false /\
          exit_code (main py_str w) = 1%Z) /\
      (forall e,
          post w req = PostRaises e ->
          returns (send_to_slack w message) false /\
          exit_code (main py_str w) = 1%Z)) /\
  (configured w = None ->
   posts (trace (main py_str w)) = [] /\ exit_code (main py_str w) = 1%Z) /\
  (List.length (posts (trace (main py_str w))) <= 1)%nat.
Proof.
  intros message.
  assert (X : forall b, returns (send_to_slack w message) b ->
                        exit_code (main py_str w) = (if b then 0 else 1)%Z).
  { intros b Hb. rewrite main_exit_code. fold message.
    unfold returns in Hb. rewrite Hb. destruct b; reflexivity. }
  assert (U : configured w = None ->
              posts (trace (main py_str w)) = [] /\
              exit_code (main py_str w) = 1%Z).
  { intros H. destruct (send_to_slack_unset w message H) as [T R]. split.
    - rewrite main_posts. fold message. rewrite <- posts_http_calls, T.
      reflexivity.
    - rewrite main_exit_code. fold message. rewrite R. reflexivity. }
  assert (C : forall url, configured w = Some url ->
                          posts (trace (main py_str w)) =
                          [slack_request url message]).
  { intros url H. destruct (send_to_slack_configured w message url H) as [T _].
    rewrite main_posts. fold message. rewrite <- posts_http_calls, T.
    reflexivity. }
  split; [| split; [exact U |]].
  - intros url H req.
    destruct (send_to_slack_configured w message url H) as [_ R].
    fold req in R.
    split; [exact (C url H) | split; [| split]].
    + eexists. split; [exact R |]. split; [| apply X; exact R].
      destruct (post w req) as [code text | e].
      * split.
        -- intros E. apply Z.eqb_eq in E. subst code. exists text. reflexivity.
        -- intros [text' E]. injection E as -> _. reflexivity.
      * split; [discriminate | intros [text' E]; discriminate E].
    + intros code text E Hne. rewrite E in R.
      apply Z.eqb_neq in Hne. rewrite Hne in R. split; [exact R |].
      apply (X false R).
    + intros e E. rewrite E in R. split; [exact R |]. apply (X false R).
  - destruct (configured w) as [url |] eqn:E.
    + rewrite (C url eq_refl). simpl. lia.
    + destruct (U eq_refl) as [P _]. rewrite P. simpl. lia.
Qed.

Lemma C8_delivery_witness :
  posts (trace (main str_int world_AB)) =
    [slack_request "https://hooks.example/services/T"
                   (report str_int world_AB)] /\
  exit_code (main str_int world_AB) = 0%Z /\
  posts (trace (main str_int world_500)) =
    [slack_request "https://hooks.example/services/T"
                   (report str_int world_500)] /\
  exit_code (main str_int world_500) = 1%Z.
Proof.
  destruct (proj1 (C8_delivery str_int world_AB)
              "https://hooks.example/services/T" eq_refl)
    as [P [[b [R [[_ S] X]]] _]].
  destruct (proj1 (C8_delivery str_int world_500)
              "https://hooks.example/services/T" eq_refl)
    as [P' [_ [F _]]].
  split; [exact P |]. split.
  - rewrite X, S; [reflexivity |]. exists "ok". reflexivity.
  - split; [exact P' |].
    apply (F 500%Z "internal error"); [reflexivity | discriminate].
Defined.

(** C8 as the specification words it fails: the run without the webhook
    URL makes no POST at all. *)
Lemma C8_counterexample : ~ delivery_as_specified str_int world_unset.
Proof.
  intros [req [P _]]. vm_compute in P. discriminate P.
Qed.

(* ===================================================================== *)
(** ** The run in which no fetch succeeds *)
(* ===================================================================== *)

Lemma included_all_fail (w : world) (items : list (string * Q)) :
  (forall symbol shares,
      In (symbol, shares) items -> fetch_fails w symbol = true) ->
  included w items = [].
Proof.
  unfold included.
  induction items as [| [symbol shares] items IH]; intros H; simpl.
  - reflexivity.
  - assert (F : fetch_fails w symbol = true) by (apply (H symbol shares); left; reflexivity).
    apply quote_of_failure in F. rewrite F. simpl.
    apply IH. intros s q Hin. apply (H s q). right. exact Hin.
Qed.

(** C10. When the fetch of every symbol of the table fails,
    [calculate_portfolio] returns an empty list of holdings, a total value
    of 0, a total daily change of 0 and a total change percent of 0.  The
    run goes on: every symbol is fetched, the message formatted is the
    header followed by the summary with its zero figures, and [main] hands
    it to [send_to_slack], whose POST, made when the webhook URL is
    configured, carries it. *)
Theorem C10_all_fetches_fail (py_str : Q -> string) (w : world) :
  (forall symbol shares,
      In (symbol, shares) (PORTFOLIO w) -> fetch_fails w symbol = true) ->
  returns (calculate_portfolio w) ([], 0%Q, 0%Q, 0%Q) /\
  report py_str w =
    (emoji_flat ++ " *Portfolio Update - "
     ++ strftime_now w "%B %d, %Y at %I:%M %p EST" ++ "*" ++ nl ++ nl)
    ++ (rule ++ nl
        ++ "*Total Portfolio Value:* $0.00" ++ nl
        ++ "*Today's Change:* $+0.00 (+0.00%)" ++ nl
        ++ "*Trend:* Flat") /\
  http_calls (trace (main py_str w)) =
    (fetch_all (PORTFOLIO w)
     ++ http_calls (trace (send_to_slack w (report py_str w))))%list /\
  exit_code (main py_str w) =
    match result (send_to_slack w (report py_str w)) with
    | Returned true => 0%Z
    | Returned false => 1%Z
    | Exited c => c
    end /\
  (forall url,
      configured w = Some url ->
      posts (trace (main py_str w)) =
        [slack_request url (report py_str w)]).
Proof.
  intros H.
  pose proof (included_all_fail w (PORTFOLIO w) H) as E.
  split; [| split; [| split; [| split]]].
  - pose proof (calculate_portfolio_returns w) as R. simpl in R.
    rewrite E in R. exact R.
  - unfold report. rewrite E. reflexivity.
  - apply main_requests.
  - apply main_exit_code.
  - intros url U. rewrite main_posts.
    destruct (send_to_slack_configured w (report py_str w) url U) as [T _].
    rewrite <- posts_http_calls, T. reflexivity.
Qed.

Lemma C10_all_fetches_fail_witness :
  returns (calculate_portfolio world_all_fail) ([], 0%Q, 0%Q, 0%Q) /\
  posts (trace (main str_int world_all_fail)) =
    [slack_request "https://hooks.example/services/T"
                   (report str_int world_all_fail)].
Proof.
  destruct (C10_all_fetches_fail str_int world_all_fail)
    as [R [_ [_ [_ P]]]].
  - intros symbol shares [E | [E | []]]; injection E as <- _; reflexivity.
  - split; [exact R |]. apply P. reflexivity.
Defined.


(* ===================================================================== *)
(** ** Sums of rationals *)
(* ===================================================================== *)

Lemma fold_left_Qplus_shift (l : list Q) :
  forall a : Q, (fold_left Qplus l a == a + Qsum l)%Q.
Proof.
  unfold Qsum.
  induction l as [| x l IH]; intros a; simpl.
  - ring.
  - rewrite (IH (a + x)%Q), (IH (0 + x)%Q). ring.
Qed.

Lemma Qsum_cons (x : Q) (l : list Q) : (Qsum (x :: l) == x + Qsum l)%Q.
Proof.
  unfold Qsum at 1. simpl. rewrite fold_left_Qplus_shift. ring.
Qed.

Lemma Qsum_nonneg (l : list Q) :
  Forall (fun x => (0 <= x)%Q) l -> (0 <= Qsum l)%Q.
Proof.
  induction 1 as [| x l Hx _ IH].
  - unfold Qsum; simpl. lra.
  - rewrite Qsum_cons. lra.
Qed.

Lemma Qsum_zero (l : list Q) :
  Forall (fun x => (x == 0)%Q) l -> (Qsum l == 0)%Q.
Proof.
  induction 1 as [| x l Hx _ IH].
  - reflexivity.
  - rewrite Qsum_cons, Hx, IH. ring.
Qed.


(* ===================================================================== *)
(** ** The entries of portfolio_data *)
(* ===================================================================== *)

Lemma included_pairs (w : world) (items : list (string * Q)) :
  map (fun s => (stock_symbol s, stock_shares s)) (included w items) =
  filter (fun item => negb (fetch_fails w (fst item))) items.
Proof.
  unfold included.
  induction items as [| [symbol shares] items IH]; simpl; [reflexivity |].
  destruct (quote_of w symbol) as [q |] eqn:E.
  - assert (F : fetch_fails w symbol = false).
    { destruct (fetch_fails w symbol) eqn:F; [| reflexivity].
      apply quote_of_failure in F. congruence. }
    rewrite F. simpl. rewrite IH. reflexivity.
  - apply quote_of_failure in E. rewrite E. simpl. exact IH.
Qed.

Lemma quote_of_latest (w : world) (symbol : string) (q : quote) :
  quote_of w symbol = Some q ->
  exists pre last,
    history w symbol = Closes (pre ++ [last]) /\ data_price q = last.
Proof.
  intros E.
  destruct (quote_of_cases w symbol q E)
    as [[pre [prev [last [H [P _]]]]] | [last [H [P _]]]].
  - exists (pre ++ [prev])%list, last. rewrite <- app_assoc. auto.
  - exists [], last. auto.
Qed.

(** X1. The entries of [portfolio_data] are the holdings of the table whose
    fetch succeeds, with their quantities, in the order of the table; there
    are never more entries than holdings. *)
Theorem entries_follow_table (w : world) :
  exists data tv tdc pct,
    returns (calculate_portfolio w) (data, tv, tdc, pct) /\
    map (fun s => (stock_symbol s, stock_shares s)) data =
      filter (fun item => negb (fetch_fails w (fst item))) (PORTFOLIO w) /\
    (List.length data <= List.length (PORTFOLIO w))%nat.
Proof.
  do 4 eexists. split; [apply calculate_portfolio_returns |].
  split; [apply included_pairs |].
  rewrite <- (length_map (fun s => (stock_symbol s, stock_shares s))).
  rewrite included_pairs. apply filter_length_le.
Qed.

(** X2. Whatever the length of the history returned, the price of an entry
    is the last close of its symbol, its value is its price times its
    quantity and its daily change is its price change times its
    quantity. *)
Theorem entries_are_consistent (w : world) :
  exists data tv tdc pct,
    returns (calculate_portfolio w) (data, tv, tdc, pct) /\
    forall s, In s data ->
      entry_consistent s /\
      exists pre last,
        history w (stock_symbol s) = Closes (pre ++ [last]) /\
        stock_price s = last.
Proof.
  do 4 eexists. split; [apply calculate_portfolio_returns |].
  intros s Hs. apply in_included in Hs.
  destruct Hs as [item [q [_ [E ->]]]]. split.
  - split; reflexivity.
  - simpl. apply (quote_of_latest w (fst item) q E).
Qed.

(* ===================================================================== *)
(** ** The sign of the totals *)
(* ===================================================================== *)

Lemma trend_of_zero (t : Q) : (t == 0)%Q -> trend t = "flat".
Proof.
  intros H. unfold trend, performance.
  assert (U : Qlt_bool 0 t = false) by (apply Qlt_bool_false_iff; lra).
  assert (D : Qlt_bool t 0 = false) by (apply Qlt_bool_false_iff; lra).
  rewrite U, D. reflexivity.
Qed.

Lemma trend_of_nonneg (t : Q) : (0 <= t)%Q -> trend t <> "down".
Proof.
  intros H. unfold trend, performance.
  destruct (Qlt_bool 0 t); [discriminate |].
  assert (D : Qlt_bool t 0 = false) by (apply Qlt_bool_false_iff; exact H).
  rewrite D. discriminate.
Qed.

Lemma percent_of_zero (tv tdc : Q) :
  (tdc == 0)%Q -> (total_change_pct_of tv tdc == 0)%Q.
Proof.
  intros H. unfold total_change_pct_of.
  destruct (Qlt_bool 0 tv); [| reflexivity].
  unfold Qdiv. rewrite H. ring.
Qed.

Lemma daily_changes_zero (w : world) :
  no_price_moved w ->
  Forall (fun x => (x == 0)%Q)
         (map stock_daily_change (included w (PORTFOLIO w))).
Proof.
  intros Hq. apply Forall_forall. intros x Hx.
  apply in_map_iff in Hx. destruct Hx as [s [<- Hs]].
  apply in_included in Hs. destruct Hs as [[symbol shares] [q [Hin [E ->]]]].
  simpl in *.
  destruct (quote_of_cases w symbol q E)
    as [[pre [prev [last [H [_ ->]]]]] | [last [H [_ ->]]]].
  - rewrite (Hq symbol shares pre prev last Hin H). ring.
  - ring.
Qed.

(** X5. When no symbol of the table moved since its previous close (a
    symbol with a single close counts as not moved), the total daily
    change and the total change percent are zero and the trend is
    "flat". *)
Theorem quiet_day_is_flat (w : world) :
  no_price_moved w ->
  exists data tv tdc pct,
    returns (calculate_portfolio w) (data, tv, tdc, pct) /\
    (tdc == 0)%Q /\ (pct == 0)%Q /\ trend tdc = "flat".
Proof.
  intros Hq.
  do 4 eexists. split; [apply calculate_portfolio_returns |].
  pose proof (Qsum_zero _ (daily_changes_zero w Hq)) as Z.
  split; [exact Z |]. split.
  - apply percent_of_zero. exact Z.
  - apply trend_of_zero. exact Z.
Qed.

Lemma world_quiet_no_price_moved : no_price_moved world_quiet.
Proof.
  intros symbol shares pre prev last [H | [H | []]] E;
    injection H as <- _; simpl in E; injection E as E.
  - destruct pre as [| c [| c' pre]]; discriminate E.
  - destruct pre as [| c [| c' [| c'' pre]]]; try discriminate E.
    injection E as <- <-. reflexivity.
Qed.

Lemma quiet_day_is_flat_witness :
  exists data tv tdc pct,
    returns (calculate_portfolio world_quiet) (data, tv, tdc, pct) /\
    (tdc == 0)%Q /\ (pct == 0)%Q /\ trend tdc = "flat".
Proof.
  apply (quiet_day_is_flat world_quiet). exact world_quiet_no_price_moved.
Defined.

Lemma daily_changes_nonneg (w : world) :
  nonneg_quantities w -> no_price_fell w ->
  Forall (fun x => (0 <= x)%Q)
         (map stock_daily_change (included w (PORTFOLIO w))).
Proof.
  intros Hq Hf. apply Forall_forall. intros x Hx.
  apply in_map_iff in Hx. destruct Hx as [s [<- Hs]].
  apply in_included in Hs. destruct Hs as [[symbol shares] [q [Hin [E ->]]]].
  simpl in *. pose proof (Hq symbol shares Hin) as Hsh.
  destruct (quote_of_cases w symbol q E)
    as [[pre [prev [last [H [_ ->]]]]] | [last [H [_ ->]]]].
  - pose proof (Hf symbol shares pre prev last Hin H) as Hle. nra.
  - nra.
Qed.

(** X6. When every quantity is non-negative and no symbol of the table
    closed below its previous close, the total daily change is not
    negative and the trend is never "down". *)
Theorem no_fall_no_down (w : world) :
  nonneg_quantities w -> no_price_fell w ->
  exists data tv tdc pct,
    returns (calculate_portfolio w) (data, tv, tdc, pct) /\
    (0 <= tdc)%Q /\ trend tdc <> "down".
Proof.
  intros Hq Hf.
  do 4 eexists. split; [apply calculate_portfolio_returns |].
  pose proof (Qsum_nonneg _ (daily_changes_nonneg w Hq Hf)) as N.
  split; [exact N | apply trend_of_nonneg; exact N].
Qed.

Lemma world_AB_no_price_fell : no_price_fell world_AB.
Proof.
  intros symbol shares pre prev last [H | [H | []]] E;
    injection H as <- _; simpl in E; injection E as E;
    (destruct pre as [| c [| c' [| c'' pre]]]; try discriminate E);
    injection E as <- <-; unfold Qle; simpl; lia.
Qed.

Lemma no_fall_no_down_witness :
  exists data tv tdc pct,
    returns (calculate_portfolio world_AB) (data, tv, tdc, pct) /\
    (0 <= tdc)%Q /\ trend tdc <> "down".
Proof.
  apply (no_fall_no_down world_AB).
  - intros symbol shares [H | [H | []]]; injection H as _ <-;
      unfold Qle; simpl; lia.
  - exact world_AB_no_price_fell.
Defined.


(* ===================================================================== *)
(** ** What calculate_portfolio depends on, and how tables compose *)
(* ===================================================================== *)

Lemma get_stock_data_local (w w' : world) (symbol : string) :
  history w symbol = history w' symbol ->
  get_stock_data w symbol = get_stock_data w' symbol.
Proof. intros H. unfold get_stock_data. rewrite H. reflexivity. Qed.

Lemma bind_ext {A B : Type} (m : prog A) (k k' : A -> prog B) :
  (forall a, k a = k' a) -> bind m k = bind m k'.
Proof.
  intros H. destruct m as [t [a | c]]; simpl; [rewrite H |]; reflexivity.
Qed.

Lemma loop_local (w w' : world) (items : list (string * Q)) :
  (forall symbol shares,
      In (symbol, shares) items -> history w symbol = history w' symbol) ->
  forall st : totals,
    for_each (loop_body w) items st = for_each (loop_body w') items st.
Proof.
  induction items as [| [symbol shares] items IH]; intros H st; simpl.
  - reflexivity.
  - assert (B : loop_body w st (symbol, shares) =
                loop_body w' st (symbol, shares)).
    { unfold loop_body. destruct st as [[data tv] tdc].
      rewrite (get_stock_data_local w w' symbol); [reflexivity |].
      apply (H symbol shares). left. reflexivity. }
    rewrite B. apply bind_ext. intros st'. apply IH.
    intros s q Hin. apply (H s q). right. exact Hin.
Qed.

(** X8. [calculate_portfolio] reads nothing but the table and the
    histories of the symbols of the table: two worlds that agree on these
    give the same console output, the same requests and the same result,
    whatever their webhook URL, their webhook and their clock. *)
Theorem calculate_portfolio_local (w w' : world) :
  PORTFOLIO w = PORTFOLIO w' ->
  (forall symbol shares,
      In (symbol, shares) (PORTFOLIO w) ->
      history w symbol = history w' symbol) ->
  calculate_portfolio w = calculate_portfolio w'.
Proof.
  intros HP HH. unfold calculate_portfolio. rewrite <- HP.
  rewrite (loop_local w w' (PORTFOLIO w) HH). reflexivity.
Qed.

Lemma calculate_portfolio_local_witness :
  calculate_portfolio world_AB = calculate_portfolio world_500.
Proof.
  apply (calculate_portfolio_local world_AB world_500).
  - reflexivity.
  - intros symbol shares _. reflexivity.
Defined.

Lemma included_app (w : world) (l1 l2 : list (string * Q)) :
  included w (l1 ++ l2) = (included w l1 ++ included w l2)%list.
Proof. apply flat_map_app. Qed.

(** X9. Tables compose: on the table [l1 ++ l2] the entries are those of
    [l1] followed by those of [l2], and each total is the total of [l1]
    carried on through the entries of [l2], their values (their daily
    changes) added one by one in their order. *)
Theorem tables_compose (w : world) (l1 l2 : list (string * Q)) :
  exists d1 tv1 tdc1 p1 d2 tv2 tdc2 p2 p,
    returns (calculate_portfolio (with_portfolio w l1)) (d1, tv1, tdc1, p1) /\
    returns (calculate_portfolio (with_portfolio w l2)) (d2, tv2, tdc2, p2) /\
    returns (calculate_portfolio (with_portfolio w (l1 ++ l2)))
            ((d1 ++ d2)%list,
             fold_left Qplus (map stock_value d2) tv1,
             fold_left Qplus (map stock_daily_change d2) tdc1,
             p).
Proof.
  pose proof (calculate_portfolio_returns (with_portfolio w l1)) as R1.
  pose proof (calculate_portfolio_returns (with_portfolio w l2)) as R2.
  pose proof (calculate_portfolio_returns (with_portfolio w (l1 ++ l2))) as R.
  simpl in R1, R2, R.
  rewrite included_with_portfolio in R1, R2, R.
  rewrite included_app in R. unfold Qsum in R.
  rewrite !map_app, !fold_left_app in R.
  do 9 eexists. split; [exact R1 |]. split; [exact R2 |]. exact R.
Qed.

(* ===================================================================== *)
(** ** The whole run *)
(* ===================================================================== *)

(** X10. A run is the opening lines, then [calculate_portfolio], then
    [send_to_slack] on the report, then the closing lines with the banner
    of the delivery's outcome; when [send_to_slack] exits, nothing follows
    it, so no closing line is printed. *)
Theorem main_trace (py_str : Q -> string) (w : world) :
  trace (main py_str w) =
  (opening_lines w
   ++ trace (calculate_portfolio w)
   ++ trace (send_to_slack w (report py_str w))
   ++ match result (send_to_slack w (report py_str w)) with
      | Returned success => closing_lines success
      | Exited _ => []
      end)%list.
Proof.
  unfold main, opening_lines.
  rewrite !trace_bind; simpl.
  rewrite (calculate_portfolio_returns w). fold (report py_str w).
  rewrite trace_bind. do 5 f_equal.
  destruct (result (send_to_slack w (report py_str w))) as [[|] | c];
    reflexivity.
Qed.

(** X11. The HTTP calls of a run, in their order: one market-data request
    per holding, in the order of the table and whatever the earlier
    requests returned, then, when the webhook URL is configured, a single
    POST to that URL, with the content type [application/json], made after
    all the requests for market data. *)
Theorem main_http_calls (py_str : Q -> string) (w : world) :
  http_calls (trace (main py_str w)) =
  (fetch_all (PORTFOLIO w)
   ++ match configured w with
      | Some url =>
          [ Post {| req_url := url;
                    req_json := slack_data (report py_str w);
                    req_headers := [("Content-Type", "application/json")];
                    req_timeout := 10 |} ]
      | None => []
      end)%list.
Proof.
  rewrite main_requests. f_equal.
  destruct (configured w) as [url |] eqn:E.
  - destruct (send_to_slack_configured w (report py_str w) url E) as [T _].
    exact T.
  - destruct (send_to_slack_unset w (report py_str w) E) as [T _].
    exact T.
Qed.

(** X12. Every run ends in [sys.exit], with code 0 or 1, and the code is 0
    exactly when the webhook URL is configured and the webhook answers the
    POST of the report with status 200. *)
Theorem main_exit (py_str : Q -> string) (w : world) :
  (exists code, result (main py_str w) = Exited code /\
                (code = 0%Z \/ code = 1%Z)) /\
  (exit_code (main py_str w) = 0%Z <->
   exists url text,
     configured w = Some url /\
     post w (slack_request url (report py_str w)) = Response 200 text).
Proof.
  assert (R : result (main py_str w) = Exited (exit_code (main py_str w))).
  { unfold exit_code, main.
    rewrite !result_bind; simpl.
    rewrite (calculate_portfolio_returns w). fold (report py_str w).
    rewrite !result_bind.
    destruct (result (send_to_slack w (report py_str w))) as [[|] | c];
      reflexivity. }
  rewrite main_exit_code in *.
  destruct (configured w) as [url |] eqn:E.
  - destruct (send_to_slack_configured w (report py_str w) url E) as [_ S].
    unfold returns in S. rewrite S in *.
    destruct (post w (slack_request url (report py_str w)))
      as [code text | e] eqn:P.
    + destruct (code =? 200)%Z eqn:C.
      * apply Z.eqb_eq in C. subst code. split.
        -- exists 0%Z. auto.
        -- split; [| reflexivity]. intros _. exists url, text. auto.
      * apply Z.eqb_neq in C. split.
        -- exists 1%Z. auto.
        -- split; [discriminate |].
           intros [url' [text' [U P']]]. injection U as <-.
           rewrite P in P'. injection P' as -> _. contradiction.
    + split.
      * exists 1%Z. auto.
      * split; [discriminate |].
        intros [url' [text' [U P']]]. injection U as <-.
        rewrite P in P'. discriminate P'.
  - destruct (send_to_slack_unset w (report py_str w) E) as [_ S].
    rewrite S in *. split.
    + exists 1%Z. auto.
    + split; [discriminate |]. intros [url' [text' [U _]]]. discriminate U.
Qed.


(** X13. An empty [SLACK_WEBHOOK_URL] is handled as a missing one: the run
    exits with code 1 and makes no POST.  Any other value is posted to as
    it stands. *)
Theorem empty_url_is_unset (py_str : Q -> string) (w : world) :
  (SLACK_WEBHOOK_URL w = Some EmptyString ->
   exit_code (main py_str w) = 1%Z /\ posts (trace (main py_str w)) = []) /\
  (forall url,
      SLACK_WEBHOOK_URL w = Some url -> url <> EmptyString ->
      exists req,
        posts (trace (main py_str w)) = [req] /\ req_url req = url).
Proof.
  split.
  - intros H.
    assert (E : configured w = None) by (unfold configured; rewrite H; reflexivity).
    destruct (send_to_slack_unset w (report py_str w) E) as [T R]. split.
    + rewrite main_exit_code, R. reflexivity.
    + rewrite main_posts, <- posts_http_calls, T. reflexivity.
  - intros url H Hne.
    assert (E : configured w = Some url).
    { unfold configured. rewrite H. destruct url; [contradiction | reflexivity]. }
    destruct (send_to_slack_configured w (report py_str w) url E) as [T _].
    eexists. split.
    + rewrite main_posts, <- posts_http_calls, T. reflexivity.
    + reflexivity.
Qed.

Lemma empty_url_is_unset_witness :
  (exit_code (main str_int world_empty_url) = 1%Z /\
   posts (trace (main str_int world_empty_url)) = []) /\
  exists req,
    posts (trace (main str_int world_AB)) = [req] /\
    req_url req = "https://hooks.example/services/T".
Proof.
  split.
  - apply (proj1 (empty_url_is_unset str_int world_empty_url)). reflexivity.
  - apply (proj2 (empty_url_is_unset str_int world_AB)
             "https://hooks.example/services/T");
      [reflexivity | discriminate].
Defined.

(** X14. What goes wrong with the delivery is on the console.  Without a
    webhook URL the run ends on the line that names the variable, with no
    closing line.  When the webhook answers with a status other than 200
    the status and the body of the response are printed, and when the POST
    raises its error is printed; in both cases the closing lines follow,
    with the banner of a run completed with errors. *)
Theorem failures_on_console (py_str : Q -> string) (w : world) :
  let start := (opening_lines w ++ trace (calculate_portfolio w))%list in
  (configured w = None ->
   trace (main py_str w) =
   (start
    ++ [Print (nl ++ "Error: SLACK_WEBHOOK_URL environment variable not set!")])%list) /\
  (forall url code text,
      configured w = Some url ->
      post w (slack_request url (report py_str w)) = Response code text ->
      code <> 200%Z ->
      trace (main py_str w) =
      (start
       ++ [ Print (nl ++ "Sending to Slack...");
            Post (slack_request url (report py_str w));
            Print ("Slack Error: Status code "
                   ++ NilZero.string_of_int (Z.to_int code));
            Print ("Response: " ++ text) ]
       ++ closing_lines false)%list) /\
  (forall url e,
      configured w = Some url ->
      post w (slack_request url (report py_str w)) = PostRaises e ->
      trace (main py_str w) =
      (start
       ++ [ Print (nl ++ "Sending to Slack...");
            Post (slack_request url (report py_str w));
            Print ("Error sending to Slack: " ++ e) ]
       ++ closing_lines false)%list).
Proof.
  intros start. unfold start.
  split; [| split].
  - intros E. rewrite main_trace, <- app_assoc. do 2 f_equal.
    unfold send_to_slack. rewrite E. reflexivity.
  - intros url code text E P C. rewrite main_trace, <- app_assoc.
    do 2 f_equal. apply Z.eqb_neq in C.
    unfold send_to_slack. rewrite E.
    fold (slack_request url (report py_str w)). rewrite P.
    cbv beta iota delta [bind emit print ret result trace fst snd app].
    rewrite C. reflexivity.
  - intros url e E P. rewrite main_trace, <- app_assoc. do 2 f_equal.
    unfold send_to_slack. rewrite E.
    fold (slack_request url (report py_str w)). rewrite P. reflexivity.
Qed.

Lemma failures_on_console_witness :
  trace (main str_int world_500) =
  (opening_lines world_500 ++ trace (calculate_portfolio world_500)
   ++ [ Print (nl ++ "Sending to Slack...");
        Post (slack_request "https://hooks.example/services/T"
                            (report str_int world_500));
        Print "Slack Error: Status code 500";
        Print "Response: internal error" ]
   ++ closing_lines false)%list.
Proof.
  rewrite app_assoc.
  apply (proj1 (proj2 (failures_on_console str_int world_500))
           "https://hooks.example/services/T" 500%Z "internal error");
    [reflexivity | reflexivity | discriminate].
Defined.

(** X15. The emoji that opens the message and the label that closes it go
    together and follow the two comparisons of the total daily change with
    zero: the rising chart with "Up" when it is above zero, the falling
    chart with "Down" when it is not above but below zero, the arrow with
    "Flat" when it is neither.  On a binary64 number too, a NaN included,
    the pair is one of these three. *)
Theorem header_matches_footer (py_str : Q -> string) (w : world)
    (data : list stock) (tv tdc pct : Q) :
  (exists emoji middle label,
      format_message py_str w data tv tdc pct =
        emoji ++ " *Portfolio Update - " ++ middle ++ "*Trend:* " ++ label /\
      (((0 < tdc)%Q /\ emoji = emoji_up /\ label = "Up") \/
       (~ (0 < tdc)%Q /\ (tdc < 0)%Q /\
        emoji = emoji_down /\ label = "Down") \/
       (~ (0 < tdc)%Q /\ ~ (tdc < 0)%Q /\
        emoji = emoji_flat /\ label = "Flat"))) /\
  (forall t : PrimFloat.float,
      let emoji := fst (performance_b64 t) in
      let label := capitalize (snd (performance_b64 t)) in
      (emoji = emoji_up /\ label = "Up") \/
      (emoji = emoji_down /\ label = "Down") \/
      (emoji = emoji_flat /\ label = "Flat")).
Proof.
  split.
  - exists (fst (performance tdc)).
    exists (strftime_now w "%B %d, %Y at %I:%M %p EST" ++ "*" ++ nl ++ nl
            ++ join (map (holding_section py_str) data)
            ++ rule ++ nl
            ++ "*Total Portfolio Value:* $" ++ format_2f false true tv ++ nl
            ++ "*Today's Change:* $" ++ format_2f true true tdc
            ++ " (" ++ format_2f true false pct ++ "%)" ++ nl).
    exists (capitalize (trend tdc)).
    split.
    + rewrite format_message_sections. unfold header, summary.
      rewrite !append_assoc. reflexivity.
    + unfold trend, performance.
      destruct (Qlt_bool 0 tdc) eqn:U.
      * left. apply Qlt_bool_iff in U. auto.
      * apply Qlt_bool_false_iff in U.
        destruct (Qlt_bool tdc 0) eqn:D.
        -- right; left. apply Qlt_bool_iff in D.
           repeat split; auto. lra.
        -- right; right. apply Qlt_bool_false_iff in D.
           repeat split; auto; lra.
  - intros t. unfold performance_b64.
    destruct (PrimFloat.ltb PrimFloat.zero t);
      [| destruct (PrimFloat.ltb t PrimFloat.zero)]; simpl; auto.
Qed.
